(** * system-monitoring-backend: the sampling, aggregation and broadcast
      pipeline of [src/app.ts]

    The development follows [src/app.ts]: the JavaScript values the file
    computes with, the records returned by the metric source, the body of
    the [setInterval] callback (storage selection, network totals, the
    [stats] object, [topProcesses]), the connection handler ([vm-info]),
    and the event loop that runs both against the set of connected sockets. *)

From Stdlib Require Import ZArith QArith Qround Qabs Bool List String Lia Lqa.
From Stdlib Require Import Permutation Sorted.
From Stdlib Require Import SpecFloat.
Import ListNotations.

Local Open Scope Z_scope.

(** ** JavaScript numbers

    A JavaScript [number] is an IEEE 754 binary64.  How one is represented
    depends on what [app.ts] does with it.

    - [number]: the value a double denotes (a rational, NaN, or an
      infinity).  The published fields have this type.
    - A byte count ([mem], [fsSize]) is an integer, kept in [Z].  The only
      arithmetic on it is the division by [1024 ** 3], a power of two, which
      binary64 performs without rounding.
    - A percentage (load, per-process cpu and mem), a temperature and the
      uptime are finite doubles that are only compared, subtracted for the
      sign of the difference, and printed; these are exact functions of the
      value, which is kept in [Q].
    - A transfer rate ([rx_sec], [tx_sec]) is added, multiplied and divided,
      and each of these rounds: it is kept as a binary64 ([spec_float] at
      precision 53) and the operations are those of [SpecFloat]. *)

Module Number.

Inductive number : Type :=
| Num (q : Q)
| NaN
| Infinity (negative : bool).

(** [x <= y] on JavaScript numbers: false as soon as one side is NaN. *)
Definition le (x y : number) : Prop :=
  match x, y with
  | Num a, Num b => (a <= b)%Q
  | Infinity true, (Num _ | Infinity _) => True
  | (Num _ | Infinity _), Infinity false => True
  | _, _ => False
  end.

(** [x == y] on JavaScript numbers. *)
Definition eq (x y : number) : Prop :=
  match x, y with
  | Num a, Num b => (a == b)%Q
  | Infinity s, Infinity t => s = t
  | _, _ => False
  end.

Definition eqb (x y : number) : bool :=
  match x, y with
  | Num a, Num b => Qeq_bool a b
  | Infinity s, Infinity t => Bool.eqb s t
  | _, _ => false
  end.

(** Step 10 of [Number.prototype.toFixed] with one fraction digit, on a
    non-negative [x]: the integer [n] for which [n / 10 - x] is as close to
    zero as possible, the larger one if there are two. *)
Definition nearest_tenth (x : Q) : Z := Qfloor (x * 10 + (1 # 2)).

(** The digits [toFixed(1)] prints, as a signed count of tenths: a negative
    [x] is printed as ["-"] followed by the digits of [-x]. *)
Definition tenths (x : Q) : Z :=
  if Qle_bool 0 x then nearest_tenth x else - nearest_tenth (- x).

(** [parseFloat(x.toFixed(1))].  NaN and the infinities are printed by
    name and read back unchanged.  A finite [x] is printed with one
    decimal and read back as the double nearest to that decimal; the
    decimal stands for that double here, which keeps the order and the
    equality of such values, not their exact distance to another number.  (From [1e21] on [toFixed] prints the shortest
    representation of [x], which reads back as [x]; such a double is an
    integer, so this is again the value rounded to one decimal.) *)
Definition toFixed1 (x : number) : number :=
  match x with
  | Num q => Num (Qred (tenths q # 10))
  | NaN => NaN
  | Infinity s => Infinity s
  end.

(** [bytes / (1024 ** 3)]. *)
Definition div_1024_pow_3 (bytes : Z) : number :=
  Num (Qred (bytes # (2 ^ 30))).

End Number.

Export Number.

(** ** Binary64 arithmetic, for the transfer rates *)

Module Float.

Definition float : Type := spec_float.

Definition prec : Z := 53.
Definition emax : Z := 1024.

Definition add : float -> float -> float := SFadd prec emax.
Definition mul : float -> float -> float := SFmul prec emax.
Definition div : float -> float -> float := SFdiv prec emax.

(** A numeric literal with an integer value. *)
Definition of_Z (z : Z) : float := binary_normalize prec emax z 0 false.

Definition zero : float := S754_zero false.

(** [ToBoolean] on a number: [+0], [-0] and NaN are falsy. *)
Definition truthy (x : float) : bool :=
  match x with
  | S754_zero _ | S754_nan => false
  | _ => true
  end.

(** The value a binary64 denotes: [(-1)^s * m * 2^e] when finite. *)
Definition value (x : float) : number :=
  match x with
  | S754_zero _ => Num 0
  | S754_nan => NaN
  | S754_infinity s => Infinity s
  | S754_finite s m e =>
      let magnitude :=
        match e with
        | Z0 => Zpos m # 1
        | Zpos p => (Zpos m * 2 ^ Zpos p) # 1
        | Zneg p => Zpos m # (2 ^ p)
        end%Q in
      Num (if s then - magnitude else magnitude)%Q
  end.

End Float.

(** ** The metric source *)

(** Modelled from the spec: the result types of the [systeminformation]
    calls ([si.*]), which the repository imports and does not declare.
    Section 6 of the specification gives their fields; only the fields
    [app.ts] reads are kept.  A field that the source may leave out
    ([main], [rx_sec], [tx_sec]) is an [option]. *)

Module SI.

Record OsData := { hostname : string; distro : string;
                   release : string; kernel : string }.

Record NetworkInterfacesData := { internal : bool; ip4 : string }.

Record CurrentLoadData := { currentLoad : Q }.

Record CpuTemperatureData := { main : option Q }.

Record MemData := { active : Z; total : Z }.

Record FsSizeData := { used : Z; size : Z }.

Record NetworkStatsData := { rx_sec : option Float.float;
                             tx_sec : option Float.float }.

Record ProcessesProcessData := { pid : Z; name : string; user : string;
                                 cpu : Q; mem : Q; state : string }.

(** [processes().list] *)
Record ProcessesData := { processes_list : list ProcessesProcessData }.

Record TimeData := { uptime : Q }.

End SI.

Import SI.

(** ** Published payloads *)

(** [interface SystemStats] *)
Record SystemStats := {
  cpuUsage : number;
  cpuTemp : number;
  memoryUsed : number;
  memoryTotal : number;
  storageUsed : number;
  storageTotal : number;
  networkUp : number;
  networkDown : number;
  stats_uptime : number
}.

(** An element of [topProcesses]. *)
Record ProcessEntry := {
  pe_pid : Z;
  pe_name : string;
  pe_user : string;
  pe_cpu : number;
  pe_mem : number;
  pe_status : string
}.

(** The object sent as [vm-info]. *)
Record VmInfo := {
  instanceId : string;
  vm_status : string;
  region : string;
  ip : string;
  os : string;
  vm_kernel : string
}.

Inductive event : Type :=
| EvVmInfo (info : VmInfo)
| EvStats (stats : SystemStats)
| EvProcesses (topProcesses : list ProcessEntry).

Definition socket_id : Type := string.

(** ** Promises, [try]/[catch] and the calls a handler makes *)

(** How a query ends: a promise is fulfilled or rejected; the synchronous
    [si.time()] returns or throws. *)
Inductive outcome (A : Type) : Type :=
| Resolved (a : A)
| Rejected (reason : string).

Arguments Resolved {A} a.
Arguments Rejected {A} reason.

Definition is_resolved {A} (o : outcome A) : bool :=
  match o with Resolved _ => true | Rejected _ => false end.

(** What a handler does to the outside.  [console.error] prints a fixed
    message followed by the caught error; the error printed is not kept. *)
Inductive call : Type :=
| IoEmit (e : event)
| SocketEmit (socket : socket_id) (e : event)
| ConsoleError (message : string).

(** The body of a [try] block: the calls made so far, and either the value
    reached or the exception that cut the block short.  Calls made before a
    throw stay made. *)
Definition block (A : Type) : Type := (list call * outcome A)%type.

Definition ret {A} (a : A) : block A := ([], Resolved a).

Definition bind {A B} (m : block A) (k : A -> block B) : block B :=
  match m with
  | (calls, Resolved a) => let (calls', r) := k a in (calls ++ calls', r)
  | (calls, Rejected reason) => (calls, Rejected reason)
  end.

(** [await p], and the call of a function that may throw. *)
Definition await {A} (p : outcome A) : block A := ([], p).

Definition do_call (c : call) : block unit := ([c], Resolved tt).

Declare Scope block_scope.
Delimit Scope block_scope with block.
Notation "x <- m ;; k" := (bind m (fun x => k))
  (at level 61, m at next level, right associativity) : block_scope.
Notation "' pat <- m ;; k" := (bind m (fun x => match x with pat => k end))
  (at level 61, pat pattern, m at next level, right associativity) : block_scope.
Notation "m ;;; k" := (bind m (fun _ => k))
  (at level 61, right associativity) : block_scope.

(** [try { body } catch (error) { console.error(message, error) }] *)
Definition try_catch (body : block unit) (message : string) : list call :=
  match body with
  | (calls, Resolved _) => calls
  | (calls, Rejected _) => calls ++ [ConsoleError message]
  end.

(** [Promise.all]: fulfilled with all the values when every promise is
    fulfilled, rejected as soon as one is. *)
Definition both {A B} (a : outcome A) (b : outcome B) : outcome (A * B) :=
  match a, b with
  | Resolved x, Resolved y => Resolved (x, y)
  | Rejected reason, _ => Rejected reason
  | _, Rejected reason => Rejected reason
  end.

(** ** The [setInterval] callback *)

Local Open Scope string_scope.

(** *** 1. Storage *)

(** [fsSize.length > 0
       ? fsSize.reduce((prev, current) => (prev.size > current.size) ? prev : current)
       : { used: 0, size: 0 }]

    [reduce] without an initial value starts from the first element and
    visits the others from left to right. *)
Definition mainDrive (fsSize : list FsSizeData) : FsSizeData :=
  match fsSize with
  | [] => {| used := 0; size := 0 |}
  | first :: rest =>
      fold_left
        (fun prev current => if size prev >? size current then prev else current)
        rest first
  end.

(** *** 2. Network *)

(** [v || 0] on a rate that may be missing. *)
Definition or_zero (v : option Float.float) : Float.float :=
  match v with
  | Some x => if Float.truthy x then x else Float.zero
  | None => Float.zero
  end.

(** [networkStats.reduce((acc, iface) => acc + (iface.rx_sec || 0), 0)] *)
Definition netRxSec (networkStats : list NetworkStatsData) : Float.float :=
  fold_left (fun acc iface => Float.add acc (or_zero (rx_sec iface)))
            networkStats Float.zero.

(** [networkStats.reduce((acc, iface) => acc + (iface.tx_sec || 0), 0)] *)
Definition netTxSec (networkStats : list NetworkStatsData) : Float.float :=
  fold_left (fun acc iface => Float.add acc (or_zero (tx_sec iface)))
            networkStats Float.zero.

(** [parseFloat(((bytesPerSec * 8) / 1000000).toFixed(1))] *)
Definition to_mbps (bytesPerSec : Float.float) : number :=
  toFixed1
    (Float.value
       (Float.div (Float.mul bytesPerSec (Float.of_Z 8)) (Float.of_Z 1000000))).

(** [cpuTemp.main || 0] *)
Definition main_or_zero (main : option Q) : number :=
  match main with
  | Some t => if Qeq_bool t 0 then Num 0 else Num t
  | None => Num 0
  end.

(** The object literal [stats]; [time] is the value of [si.time()], called
    while the literal is built. *)
Definition stats (cpuLoad : CurrentLoadData) (cpuTemp : CpuTemperatureData)
    (mem : MemData) (fsSize : list FsSizeData)
    (networkStats : list NetworkStatsData) (time : TimeData) : SystemStats :=
  {| cpuUsage := toFixed1 (Num (currentLoad cpuLoad));
     cpuTemp := main_or_zero (main cpuTemp);
     memoryUsed := toFixed1 (div_1024_pow_3 (active mem));
     memoryTotal := toFixed1 (div_1024_pow_3 (total mem));
     storageUsed := toFixed1 (div_1024_pow_3 (used (mainDrive fsSize)));
     storageTotal := toFixed1 (div_1024_pow_3 (size (mainDrive fsSize)));
     networkDown := to_mbps (netRxSec networkStats);
     networkUp := to_mbps (netTxSec networkStats);
     stats_uptime := Num (uptime time) |}.

(** *** 3. Processes *)

(** [Array.prototype.sort(comparefn)] is a stable sort: [x] is placed before
    [y] when [comparefn(x, y) < 0], after it when [comparefn(x, y) > 0], and
    the two keep their order otherwise.  It is written as an insertion
    sort that inserts from the right: the inserted element comes from
    earlier in the array than the elements it meets, and passes only those
    that must go first. *)
Section Sort.

Context {A : Type}.
Variable comparefn : A -> A -> Q.

Fixpoint insert (x : A) (l : list A) : list A :=
  match l with
  | [] => [x]
  | y :: l' =>
      if Qle_bool (comparefn x y) 0 then x :: y :: l' else y :: insert x l'
  end.

Definition sort (l : list A) : list A := fold_right insert [] l.

End Sort.

(** [(a, b) => b.cpu - a.cpu] *)
Definition by_cpu_descending (a b : ProcessesProcessData) : Q :=
  (cpu b - cpu a)%Q.

(** The arrow function given to [map]. *)
Definition to_entry (p : ProcessesProcessData) : ProcessEntry :=
  {| pe_pid := pid p;
     pe_name := name p;
     pe_user := user p;
     pe_cpu := toFixed1 (Num (cpu p));
     pe_mem := toFixed1 (Num (mem p));
     pe_status := if String.eqb (state p) "sleeping" then "Sleeping" else "Running" |}.

(** [processes.list.sort(...).slice(0, 5).map(...)] *)
Definition topProcesses (processes : ProcessesData) : list ProcessEntry :=
  map to_entry (firstn 5 (sort by_cpu_descending (processes_list processes))).

(** *** The callback *)

(** The outcome of each query of one tick. *)
Record Queries := {
  q_currentLoad : outcome CurrentLoadData;
  q_cpuTemperature : outcome CpuTemperatureData;
  q_mem : outcome MemData;
  q_fsSize : outcome (list FsSizeData);
  q_networkStats : outcome (list NetworkStatsData);
  q_processes : outcome ProcessesData;
  q_time : outcome TimeData
}.

(** [Promise.all([si.currentLoad(), si.cpuTemperature(), si.mem(),
                  si.fsSize(), si.networkStats(), si.processes()])] *)
Definition all_dynamic (q : Queries) :=
  both (q_currentLoad q)
    (both (q_cpuTemperature q)
       (both (q_mem q)
          (both (q_fsSize q)
             (both (q_networkStats q) (q_processes q))))).

Local Open Scope block_scope.

(** The body of the [try] block. *)
Definition interval_body (q : Queries) : block unit :=
  '(cpuLoad, (cpuTemp, (mem, (fsSize, (networkStats, processes))))) <-
     await (all_dynamic q) ;;
  time <- await (q_time q) ;;
  let stats := stats cpuLoad cpuTemp mem fsSize networkStats time in
  let topProcesses := topProcesses processes in
  do_call (IoEmit (EvStats stats)) ;;;
  do_call (IoEmit (EvProcesses topProcesses)).

(** [async () => { try { ... } catch (error) { console.error("Error fetching stats:", error) } }] *)
Definition interval_callback (q : Queries) : list call :=
  try_catch (interval_body q) "Error fetching stats:".

(** ** The connection handler *)

(** [netInterfaces.find(i => !i.internal && i.ip4)]; a string is truthy when
    it is not empty.  The result of [si.networkInterfaces()] is an array, so
    the [Array.isArray] test around the search holds. *)
Definition mainInterface (netInterfaces : list NetworkInterfacesData)
  : option NetworkInterfacesData :=
  find (fun i => negb (internal i) && negb (String.eqb (ip4 i) ""))
       netInterfaces.

(** [mainInterface?.ip4 || '127.0.0.1'] *)
Definition ip_or_loopback (mainInterface : option NetworkInterfacesData)
  : string :=
  match mainInterface with
  | Some i => if String.eqb (ip4 i) "" then "127.0.0.1" else ip4 i
  | None => "127.0.0.1"
  end.

Definition vm_info (osInfo : OsData)
    (netInterfaces : list NetworkInterfacesData) : VmInfo :=
  {| instanceId := hostname osInfo;
     vm_status := "Online";
     region := "Local";
     ip := ip_or_loopback (mainInterface netInterfaces);
     os := distro osInfo ++ " " ++ release osInfo;
     vm_kernel := kernel osInfo |}.

(** The [try] block of the handler, for the socket [socket]. *)
Definition connection_body (socket : socket_id)
    (osInfo : outcome OsData)
    (netInterfaces : outcome (list NetworkInterfacesData)) : block unit :=
  '(osInfo, netInterfaces) <- await (both osInfo netInterfaces) ;;
  do_call (SocketEmit socket (EvVmInfo (vm_info osInfo netInterfaces))).

Definition connection_handler (socket : socket_id)
    (osInfo : outcome OsData)
    (netInterfaces : outcome (list NetworkInterfacesData)) : list call :=
  try_catch (connection_body socket osInfo netInterfaces)
            "Error fetching static info:".

(** ** The event loop

    The process reacts to four things: a socket connects (and its handler
    starts the two static queries); the static queries of a socket have
    settled (its handler resumes after the [await]); a socket disconnects;
    the dynamic queries of a tick have settled (the interval callback
    resumes after the [await]).  Nothing is emitted or logged with
    [console.error] at any other moment.  The state is the set of sockets
    connected to the server, which [io.emit] reaches. *)

Inductive input : Type :=
| Connection (socket : socket_id)
| StaticInfoSettled (socket : socket_id) (osInfo : outcome OsData)
    (netInterfaces : outcome (list NetworkInterfacesData))
| Disconnect (socket : socket_id)
| IntervalSettled (q : Queries).

(** What leaves the process: an event written to the sockets [recipients],
    or a line on the error console. *)
Inductive output : Type :=
| Emitted (recipients : list socket_id) (e : event)
| Logged (message : string).

(** [io.emit] reaches every connected socket; [socket.emit] reaches its
    socket unless it has gone. *)
Definition perform (connected : list socket_id) (c : call) : output :=
  match c with
  | IoEmit e => Emitted connected e
  | SocketEmit socket e =>
      Emitted (if in_dec string_dec socket connected then [socket] else []) e
  | ConsoleError message => Logged message
  end.

Definition step (connected : list socket_id) (i : input)
  : list socket_id * list output :=
  match i with
  | Connection socket => (socket :: connected, [])
  | StaticInfoSettled socket osInfo netInterfaces =>
      (connected,
       map (perform connected) (connection_handler socket osInfo netInterfaces))
  | Disconnect socket => (remove string_dec socket connected, [])
  | IntervalSettled q =>
      (connected, map (perform connected) (interval_callback q))
  end.

Fixpoint run (connected : list socket_id) (inputs : list input)
  : list socket_id * list output :=
  match inputs with
  | [] => (connected, [])
  | i :: inputs' =>
      let (connected', out) := step connected i in
      let (connected'', out') := run connected' inputs' in
      (connected'', (out ++ out')%list)
  end.

(** The events a given socket is sent, in order. *)
Definition received (socket : socket_id) (out : list output) : list event :=
  flat_map
    (fun o =>
       match o with
       | Emitted recipients e =>
           if in_dec string_dec socket recipients then [e] else []
       | Logged _ => []
       end)
    out.

(** * Notions used in the statements *)

(** Every query of the tick succeeded. *)
Definition all_resolved (q : Queries) : bool :=
  is_resolved (q_currentLoad q) && is_resolved (q_cpuTemperature q) &&
  is_resolved (q_mem q) && is_resolved (q_fsSize q) &&
  is_resolved (q_networkStats q) && is_resolved (q_processes q) &&
  is_resolved (q_time q).

(** The step function of the [reduce]. *)
Definition larger (prev current : FsSizeData) : FsSizeData :=
  if size prev >? size current then prev else current.

(** [a] may stand before [b]. *)
Definition cpu_not_below (a b : ProcessesProcessData) : Prop :=
  (cpu b <= cpu a)%Q.

(** The entries whose cpu is [c]. *)
Definition with_cpu (c : Q) (l : list ProcessesProcessData)
  : list ProcessesProcessData :=
  filter (fun p => Qeq_bool (cpu p) c) l.

(** [l1] is [l2] with some elements left out, the others in the same
    order. *)
Inductive subsequence {A : Type} : list A -> list A -> Prop :=
| subsequence_nil : forall l, subsequence [] l
| subsequence_take : forall x l1 l2,
    subsequence l1 l2 -> subsequence (x :: l1) (x :: l2)
| subsequence_skip : forall x l1 l2,
    subsequence l1 l2 -> subsequence l1 (x :: l2).

(** The sum of a list of rates, taken from left to right from 0. *)
Definition sum_rates (rates : list Float.float) : Float.float :=
  fold_left Float.add rates Float.zero.

(** The rate of an interface when it has one: present, a number, not 0. *)
Definition reported (v : option Float.float) : list Float.float :=
  match v with
  | Some x => if Float.truthy x then [x] else []
  | None => []
  end.

(** Equal, or both a zero (of either sign). *)
Definition alike (x y : Float.float) : Prop :=
  match x, y with
  | S754_zero _, S754_zero _ => True
  | _, _ => x = y
  end.

(** An interface the search passes over: internal, or without an IPv4
    address. *)
Definition passed_over (i : NetworkInterfacesData) : Prop :=
  internal i = true \/ ip4 i = "".

(** The entries that [slice(0, 5)] leaves out. *)
Definition not_published (processes : ProcessesData)
  : list ProcessesProcessData :=
  skipn 5 (sort by_cpu_descending (processes_list processes)).

(** A binary64 with the sign bit [s] that is not NaN. *)
Definition has_sign (s : bool) (x : Float.float) : Prop :=
  match x with
  | S754_zero s' | S754_infinity s' | S754_finite s' _ _ => s' = s
  | S754_nan => False
  end.

(** A rate as the system reports it: missing, NaN, a zero, or above zero. *)
Definition not_below_zero (v : option Float.float) : Prop :=
  match v with
  | Some (S754_finite true _ _) | Some (S754_infinity true) => False
  | _ => True
  end.

(** A finite number that is not negative, or [+Infinity]. *)
Definition zero_or_more (x : number) : Prop :=
  match x with
  | Num q => (0 <= q)%Q
  | Infinity false => True
  | _ => False
  end.

(** The test of the search for the main interface. *)
Definition external_with_ip4 (i : NetworkInterfacesData) : bool :=
  negb (internal i) && negb (String.eqb (ip4 i) "").

(** A stream of events in which every [stats] event is immediately followed
    by a [processes] event, and no [processes] event comes otherwise. *)
Inductive paired : list event -> Prop :=
| paired_nil : paired []
| paired_vm_info : forall info l, paired l -> paired (EvVmInfo info :: l)
| paired_tick : forall s top l,
    paired l -> paired (EvStats s :: EvProcesses top :: l).

(** More sample inputs: a process list already in descending order of cpu,
    and the results of the two static queries. *)
Definition sorted_processes : ProcessesData :=
  {| processes_list :=
       [ {| pid := 812; name := "node"; user := "app";
            cpu := 7.5; mem := 3.75; state := "running" |};
         {| pid := 1; name := "init"; user := "root";
            cpu := 2.25; mem := 0.25; state := "sleeping" |};
         {| pid := 97; name := "sshd"; user := "root";
            cpu := 2.25; mem := 0.5; state := "sleeping" |} ] |}.
Definition sample_osInfo : OsData :=
  {| hostname := "host-1"; distro := "Ubuntu"; release := "22.04";
     kernel := "5.15.0" |}.
Definition sample_netInterfaces : list NetworkInterfacesData :=
  [ {| internal := true; ip4 := "127.0.0.1" |};
    {| internal := false; ip4 := "" |};
    {| internal := false; ip4 := "10.0.0.2" |} ].

(** ** The specification's reading, where the callback departs from it *)

(** The volume the specification describes: the largest total size, the
    first encountered among equals. *)
Definition largest_first_encountered (fsSize : list FsSizeData) : FsSizeData :=
  match fsSize with
  | [] => {| used := 0; size := 0 |}
  | first :: rest =>
      fold_left (fun best v => if size v >? size best then v else best)
                rest first
  end.

(** The specification's words: published entries with equal [cpu] are in
    the order their processes have in the source list. *)
Definition published_ties_in_source_order (processes : ProcessesData) : Prop :=
  forall c : number,
    subsequence
      (filter (fun e => Number.eqb (pe_cpu e) c) (topProcesses processes))
      (filter (fun e => Number.eqb (pe_cpu e) c)
              (map to_entry (processes_list processes))).

(** ** Sample inputs *)

(** Sample results of the other queries, used where a concrete tick is
    needed. *)
Definition sample_cpuLoad : CurrentLoadData := {| currentLoad := 12.375 |}.
Definition sample_cpuTemp : CpuTemperatureData := {| main := Some 48.5%Q |}.
Definition sample_mem : MemData :=
  {| active := 4 * 2 ^ 30 + 123456789; total := 16 * 2 ^ 30 |}.
Definition sample_fsSize : list FsSizeData :=
  [ {| used := 10 * 2 ^ 30; size := 100 * 2 ^ 30 |};
    {| used := 5 * 2 ^ 30; size := 500 * 2 ^ 30 |} ].
Definition sample_networkStats : list NetworkStatsData :=
  [ {| rx_sec := Some (Float.of_Z 500000); tx_sec := None |};
    {| rx_sec := Some (Float.of_Z 250000); tx_sec := Some (Float.of_Z 18750) |} ].
Definition sample_processes : ProcessesData :=
  {| processes_list :=
       [ {| pid := 1; name := "init"; user := "root";
            cpu := 1.5; mem := 0.25; state := "sleeping" |};
         {| pid := 2; name := "node"; user := "app";
            cpu := 1.53125; mem := 3.75; state := "running" |} ] |}.
Definition sample_time : TimeData := {| uptime := 86400 |}.

(** The tick in which every query succeeds with the sample results. *)
Definition sample_queries : Queries :=
  {| q_currentLoad := Resolved sample_cpuLoad;
     q_cpuTemperature := Resolved sample_cpuTemp;
     q_mem := Resolved sample_mem;
     q_fsSize := Resolved sample_fsSize;
     q_networkStats := Resolved sample_networkStats;
     q_processes := Resolved sample_processes;
     q_time := Resolved sample_time |}.

(** Two volumes of 100 GiB, 1 GiB and 2 GiB used. *)
Definition tied_volumes : list FsSizeData :=
  [ {| used := 1 * 2 ^ 30; size := 100 * 2 ^ 30 |};
    {| used := 2 * 2 ^ 30; size := 100 * 2 ^ 30 |} ].

(** The sample tick with the temperature query rejected. *)
Definition temperature_rejected : Queries :=
  {| q_currentLoad := Resolved sample_cpuLoad;
     q_cpuTemperature := Rejected "no thermal sensor";
     q_mem := Resolved sample_mem;
     q_fsSize := Resolved sample_fsSize;
     q_networkStats := Resolved sample_networkStats;
     q_processes := Resolved sample_processes;
     q_time := Resolved sample_time |}.

(** The sample tick with the process query rejected. *)
Definition processes_rejected : Queries :=
  {| q_currentLoad := Resolved sample_cpuLoad;
     q_cpuTemperature := Resolved sample_cpuTemp;
     q_mem := Resolved sample_mem;
     q_fsSize := Resolved sample_fsSize;
     q_networkStats := Resolved sample_networkStats;
     q_processes := Rejected "ps failed";
     q_time := Resolved sample_time |}.

(** * Properties *)

(** ** The views of a number agree, on the sample values *)

(** Dividing a byte count by [1024 ** 3] in binary64 gives the exact
    quotient. *)
Example byte_division_is_exact :
  Number.eq
    (Float.value (Float.div (Float.of_Z (active sample_mem))
                            (Float.of_Z (1024 ^ 3))))
    (div_1024_pow_3 (active sample_mem)) /\
  Number.eq
    (Float.value (Float.div (Float.of_Z (9007199254740991))
                            (Float.of_Z (1024 ^ 3))))
    (div_1024_pow_3 9007199254740991).
Proof. split; vm_compute; reflexivity. Qed.

(** ** Rounding to one decimal is monotone *)

Lemma nearest_tenth_nonneg (x : Q) : (0 <= x)%Q -> 0 <= nearest_tenth x.
Proof.
  intros Hx. unfold nearest_tenth.
  change 0 with (Qfloor 0). apply Qfloor_resp_le.
  apply Qle_trans with (x * 10)%Q.
  - apply Qmult_le_0_compat; [exact Hx | discriminate].
  - rewrite <- (Qplus_0_r (x * 10)) at 1.
    apply Qplus_le_r. discriminate.
Qed.

Lemma nearest_tenth_mono (x y : Q) :
  (x <= y)%Q -> nearest_tenth x <= nearest_tenth y.
Proof.
  intros Hxy. unfold nearest_tenth. apply Qfloor_resp_le.
  apply Qplus_le_l. apply Qmult_le_compat_r; [exact Hxy | discriminate].
Qed.

Lemma tenths_mono (x y : Q) : (x <= y)%Q -> tenths x <= tenths y.
Proof.
  intros Hxy. unfold tenths.
  destruct (Qle_bool 0 x) eqn:Hx; destruct (Qle_bool 0 y) eqn:Hy.
  - now apply nearest_tenth_mono.
  - apply Qle_bool_iff in Hx.
    assert (Hy' : Qle_bool 0 y = true)
      by (apply Qle_bool_iff; now apply Qle_trans with x).
    congruence.
  - apply Qle_bool_iff in Hy.
    assert (0 <= nearest_tenth (- x)).
    { apply nearest_tenth_nonneg.
      destruct (Qlt_le_dec x 0) as [Hlt | Hge].
      - apply Qlt_le_weak in Hlt. apply Qopp_le_compat in Hlt. exact Hlt.
      - apply Qle_bool_iff in Hge. congruence. }
    pose proof (nearest_tenth_nonneg y Hy). lia.
  - assert (nearest_tenth (- y) <= nearest_tenth (- x))
      by (apply nearest_tenth_mono; now apply Qopp_le_compat).
    lia.
Qed.

Lemma toFixed1_mono (x y : number) :
  Number.le x y -> Number.le (toFixed1 x) (toFixed1 y).
Proof.
  destruct x as [a | | s], y as [b | | t]; cbn [toFixed1 Number.le]; try tauto.
  intros Hab. apply Qred_le.
  apply tenths_mono in Hab. unfold Qle. simpl. lia.
Qed.

Lemma div_1024_pow_3_mono (a b : Z) :
  a <= b -> Number.le (div_1024_pow_3 a) (div_1024_pow_3 b).
Proof.
  intros Hab. unfold div_1024_pow_3. cbn [Number.le]. apply Qred_le.
  unfold Qle. simpl. lia.
Qed.

(** ** Storage: which volume [mainDrive] is *)

(** [reduce] returns the last volume of maximal size: nothing before it is
    larger, everything after it is strictly smaller. *)
Lemma reduce_larger_last_maximum (rest : list FsSizeData) (first : FsSizeData) :
  exists before v after,
    first :: rest = (before ++ v :: after)%list /\
    fold_left larger rest first = v /\
    Forall (fun x => size x <= size v) before /\
    Forall (fun x => size x < size v) after.
Proof.
  induction rest as [| c rest IH] using rev_ind.
  - exists [], first, []. simpl. repeat split; constructor.
  - destruct IH as (before & v & after & Hsplit & Hfold & Hbefore & Hafter).
    rewrite fold_left_app. simpl. rewrite Hfold. unfold larger.
    destruct (size v >? size c) eqn:Hcmp.
    + apply Z.gtb_lt in Hcmp.
      exists before, v, (after ++ [c])%list.
      split; [| split; [reflexivity | split]].
      * rewrite app_comm_cons, Hsplit, <- app_assoc. reflexivity.
      * exact Hbefore.
      * apply Forall_app. split; [exact Hafter | repeat constructor; lia].
    + assert (Hle : size v <= size c).
      { destruct (Z.gtb_spec (size v) (size c)); [discriminate | lia]. }
      exists (first :: rest), c, [].
      split; [reflexivity | split; [reflexivity | split]].
      * rewrite Hsplit. apply Forall_app. split.
        -- eapply Forall_impl; [| exact Hbefore]. simpl. intros; lia.
        -- constructor; [exact Hle |].
           eapply Forall_impl; [| exact Hafter]. simpl. intros; lia.
      * constructor.
Qed.

Lemma mainDrive_cons (first : FsSizeData) (rest : list FsSizeData) :
  mainDrive (first :: rest) = fold_left larger rest first.
Proof. reflexivity. Qed.

Lemma mainDrive_In (first : FsSizeData) (rest : list FsSizeData) :
  In (mainDrive (first :: rest)) (first :: rest).
Proof.
  destruct (reduce_larger_last_maximum rest first)
    as (before & v & after & Hsplit & Hfold & _).
  rewrite mainDrive_cons, Hfold, Hsplit. apply in_elt.
Qed.

(** C2, as stated, fails: among volumes of equal largest size the callback
    reports the last one, where the claim names the first. *)
Lemma mainDrive_tie_is_not_first_encountered :
  mainDrive tied_volumes <> largest_first_encountered tied_volumes /\
  storageUsed
    (stats sample_cpuLoad sample_cpuTemp sample_mem tied_volumes
       sample_networkStats sample_time) = Num 2.
Proof.
  split.
  - vm_compute. discriminate.
  - vm_compute. reflexivity.
Qed.

(** C2, amended: the storage figures are those of one volume of the list,
    the last one of largest total size (no volume before it is larger, every
    volume after it is strictly smaller); without volumes both figures are
    0; of two volumes of different sizes the larger one is reported, not the
    sum. *)
Theorem storage_is_last_largest_volume
    (cpuLoad : CurrentLoadData) (cpuTemp : CpuTemperatureData) (mem : MemData)
    (networkStats : list NetworkStatsData) (time : TimeData) :
  let s := fun fsSize => stats cpuLoad cpuTemp mem fsSize networkStats time in
  (storageUsed (s []) = Num 0 /\ storageTotal (s []) = Num 0) /\
  (forall first rest, exists before v after,
      first :: rest = (before ++ v :: after)%list /\
      Forall (fun x => size x <= size v) before /\
      Forall (fun x => size x < size v) after /\
      storageUsed (s (first :: rest)) = toFixed1 (div_1024_pow_3 (used v)) /\
      storageTotal (s (first :: rest)) = toFixed1 (div_1024_pow_3 (size v))) /\
  (forall a b,
      storageTotal (s [a; b])
      = toFixed1 (div_1024_pow_3 (Z.max (size a) (size b)))).
Proof.
  intros s. split; [| split].
  - split; vm_compute; reflexivity.
  - intros first rest.
    destruct (reduce_larger_last_maximum rest first)
      as (before & v & after & Hsplit & Hfold & Hbefore & Hafter).
    exists before, v, after.
    unfold s, stats. cbn [storageUsed storageTotal].
    rewrite mainDrive_cons, Hfold. auto.
  - intros a b. unfold s, stats. cbn [storageTotal mainDrive fold_left].
    destruct (Z.gtb_spec (size a) (size b)).
    + now rewrite Z.max_l by lia.
    + now rewrite Z.max_r by lia.
Qed.

(** C7: when the memory in use does not exceed the total memory, and no
    volume has more bytes used than its size, the published figures satisfy
    [memoryUsed <= memoryTotal] and [storageUsed <= storageTotal]. *)
Theorem used_within_total
    (cpuLoad : CurrentLoadData) (cpuTemp : CpuTemperatureData) (mem : MemData)
    (fsSize : list FsSizeData) (networkStats : list NetworkStatsData)
    (time : TimeData) :
  active mem <= total mem ->
  Forall (fun v => used v <= size v) fsSize ->
  let s := stats cpuLoad cpuTemp mem fsSize networkStats time in
  Number.le (memoryUsed s) (memoryTotal s) /\
  Number.le (storageUsed s) (storageTotal s).
Proof.
  intros Hmem Hfs s. unfold s, stats. cbn [memoryUsed memoryTotal storageUsed storageTotal].
  split; apply toFixed1_mono, div_1024_pow_3_mono; [exact Hmem |].
  destruct fsSize as [| first rest].
  - simpl. lia.
  - rewrite Forall_forall in Hfs. apply Hfs, mainDrive_In.
Qed.

Lemma used_within_total_witness :
  active sample_mem <= total sample_mem /\
  Forall (fun v => used v <= size v) sample_fsSize /\
  Number.le
    (memoryUsed (stats sample_cpuLoad sample_cpuTemp sample_mem sample_fsSize
                   sample_networkStats sample_time))
    (memoryTotal (stats sample_cpuLoad sample_cpuTemp sample_mem sample_fsSize
                    sample_networkStats sample_time)) /\
  Number.le
    (storageUsed (stats sample_cpuLoad sample_cpuTemp sample_mem sample_fsSize
                    sample_networkStats sample_time))
    (storageTotal (stats sample_cpuLoad sample_cpuTemp sample_mem sample_fsSize
                     sample_networkStats sample_time)).
Proof.
  assert (Hmem : active sample_mem <= total sample_mem)
    by (vm_compute; discriminate).
  assert (Hfs : Forall (fun v => used v <= size v) sample_fsSize)
    by (repeat constructor; vm_compute; discriminate).
  split; [exact Hmem | split; [exact Hfs |]].
  exact (used_within_total sample_cpuLoad sample_cpuTemp sample_mem
           sample_fsSize sample_networkStats sample_time Hmem Hfs).
Defined.

(** ** Processes: the order of [topProcesses] *)

Lemma by_cpu_descending_le (a b : ProcessesProcessData) :
  Qle_bool (by_cpu_descending a b) 0 = true <-> (cpu b <= cpu a)%Q.
Proof.
  unfold by_cpu_descending. rewrite Qle_bool_iff. split; intros H; lra.
Qed.

Lemma by_cpu_descending_gt (a b : ProcessesProcessData) :
  Qle_bool (by_cpu_descending a b) 0 = false -> (cpu a < cpu b)%Q.
Proof.
  intros H. destruct (Qlt_le_dec (cpu a) (cpu b)) as [Hlt | Hge]; [exact Hlt |].
  apply by_cpu_descending_le in Hge. congruence.
Qed.

Lemma insert_In (x z : ProcessesProcessData) (l : list ProcessesProcessData) :
  In z (insert by_cpu_descending x l) -> z = x \/ In z l.
Proof.
  induction l as [| y l IH]; simpl.
  - intros [H | []]; auto.
  - destruct (Qle_bool (by_cpu_descending x y) 0); simpl.
    + intros [H | H]; auto.
    + intros [H | H]; auto. destruct (IH H); auto.
Qed.

Lemma insert_sorted (x : ProcessesProcessData) (l : list ProcessesProcessData) :
  StronglySorted cpu_not_below l ->
  StronglySorted cpu_not_below (insert by_cpu_descending x l).
Proof.
  induction 1 as [| y l Hsorted IH Hy]; simpl.
  - repeat constructor.
  - destruct (Qle_bool (by_cpu_descending x y) 0) eqn:Hcmp.
    + apply by_cpu_descending_le in Hcmp.
      constructor; [constructor; assumption |].
      constructor; [exact Hcmp |].
      eapply Forall_impl; [| exact Hy].
      unfold cpu_not_below. intros z Hz. lra.
    + apply by_cpu_descending_gt in Hcmp.
      constructor; [exact IH |].
      rewrite Forall_forall in Hy |- *. intros z Hz.
      destruct (insert_In _ _ _ Hz) as [-> | Hin].
      * unfold cpu_not_below. lra.
      * now apply Hy.
Qed.

Lemma sort_sorted (l : list ProcessesProcessData) :
  StronglySorted cpu_not_below (sort by_cpu_descending l).
Proof.
  induction l as [| x l IH]; simpl.
  - constructor.
  - now apply insert_sorted.
Qed.

Lemma insert_with_cpu (c : Q) (x : ProcessesProcessData)
    (l : list ProcessesProcessData) :
  with_cpu c (insert by_cpu_descending x l) = with_cpu c (x :: l).
Proof.
  unfold with_cpu. induction l as [| y l IH]; simpl.
  - reflexivity.
  - destruct (Qle_bool (by_cpu_descending x y) 0) eqn:Hcmp.
    + reflexivity.
    + apply by_cpu_descending_gt in Hcmp. simpl in IH |- *. rewrite IH.
      destruct (Qeq_bool (cpu x) c) eqn:Hx; destruct (Qeq_bool (cpu y) c) eqn:Hy;
        try reflexivity.
      apply Qeq_bool_iff in Hx, Hy. lra.
Qed.

(** The sort is stable: the entries of any one cpu value are in the order
    of the source list. *)
Lemma sort_with_cpu (c : Q) (l : list ProcessesProcessData) :
  with_cpu c (sort by_cpu_descending l) = with_cpu c l.
Proof.
  induction l as [| x l IH]; simpl.
  - reflexivity.
  - rewrite insert_with_cpu. unfold with_cpu in *. simpl. now rewrite IH.
Qed.

Lemma sort_Permutation (l : list ProcessesProcessData) :
  Permutation (sort by_cpu_descending l) l.
Proof.
  induction l as [| x l IH]; simpl.
  - constructor.
  - transitivity (x :: sort by_cpu_descending l); [| now constructor].
    generalize (sort by_cpu_descending l) as s. clear.
    induction s as [| y s IHs]; simpl.
    + reflexivity.
    + destruct (Qle_bool (by_cpu_descending x y) 0); [reflexivity |].
      rewrite IHs. apply perm_swap.
Qed.

Lemma StronglySorted_firstn {A} (R : A -> A -> Prop) (n : nat) (l : list A) :
  StronglySorted R l -> StronglySorted R (firstn n l).
Proof.
  intros H. revert n. induction H as [| x l Hsorted IH Hx]; intros [| n]; simpl;
    try constructor.
  - apply IH.
  - rewrite Forall_forall in Hx |- *. intros z Hz.
    apply Hx. rewrite <- (firstn_skipn n l). apply in_or_app. now left.
Qed.

Lemma StronglySorted_map {A B} (R : A -> A -> Prop) (R' : B -> B -> Prop)
    (f : A -> B) (l : list A) :
  (forall a b, R a b -> R' (f a) (f b)) ->
  StronglySorted R l -> StronglySorted R' (map f l).
Proof.
  intros Hf. induction 1 as [| x l Hsorted IH Hx]; simpl; constructor.
  - exact IH.
  - rewrite Forall_forall in Hx |- *. intros z Hz.
    apply in_map_iff in Hz. destruct Hz as (a & <- & Ha). now apply Hf, Hx.
Qed.

(** C3, as stated, fails: of two processes at 1.5 and 1.53125 percent, in
    this order in the source, both are published with cpu 1.5 and the second
    one comes first. *)
Lemma published_ties_may_swap :
  ~ published_ties_in_source_order sample_processes.
Proof.
  intros H. specialize (H (Num 1.5)). vm_compute in H.
  inversion H as [| x l1 l2 H1 | x l1 l2 H1]; subst.
  inversion H1 as [| x l1 l2 H2 | x l1 l2 H2]; subst.
  - inversion H2.
  - inversion H2.
Qed.

(** C3, amended: the published list is the image of at most 5 entries of
    the source list; its cpu values never increase from one entry to a later
    one; the picked entries stand in non-increasing order of their cpu before
    rounding, so that two entries whose published cpu is equal only after
    rounding are ordered by their unrounded cpu; and the picked entries that
    have one same cpu value in the source (before rounding) are the first
    entries of the source list with that value, in the order of the source
    list. *)
Theorem topProcesses_ordered_and_stable (processes : ProcessesData) :
  let picked := firstn 5 (sort by_cpu_descending (processes_list processes)) in
  topProcesses processes = map to_entry picked /\
  (List.length (topProcesses processes) <= 5)%nat /\
  StronglySorted (fun a b => Number.le (pe_cpu b) (pe_cpu a))
                 (topProcesses processes) /\
  StronglySorted cpu_not_below picked /\
  (forall c, exists later,
      with_cpu c (processes_list processes) = (with_cpu c picked ++ later)%list).
Proof.
  intros picked. unfold topProcesses. fold picked.
  split; [reflexivity | split; [| split; [| split]]].
  - rewrite length_map. apply firstn_le_length.
  - apply StronglySorted_map with (R := cpu_not_below).
    + intros a b Hab. unfold to_entry. cbn [pe_cpu].
      apply toFixed1_mono. exact Hab.
    + apply StronglySorted_firstn, sort_sorted.
  - apply StronglySorted_firstn, sort_sorted.
  - intros c.
    exists (with_cpu c (skipn 5 (sort by_cpu_descending (processes_list processes)))).
    unfold picked, with_cpu. rewrite <- filter_app, firstn_skipn.
    symmetry. apply sort_with_cpu.
Qed.

(** ** Network: the totals *)

Lemma reduce_is_sum (rate : NetworkStatsData -> option Float.float)
    (networkStats : list NetworkStatsData) :
  fold_left (fun acc iface => Float.add acc (or_zero (rate iface)))
            networkStats Float.zero
  = sum_rates (map (fun iface => or_zero (rate iface)) networkStats).
Proof.
  unfold sum_rates. generalize Float.zero as acc.
  induction networkStats as [| iface l IH]; intros acc; simpl.
  - reflexivity.
  - apply IH.
Qed.

Lemma alike_refl (x : Float.float) : alike x x.
Proof. destruct x; simpl; auto. Qed.

Lemma add_zero_alike (x y : Float.float) :
  alike x y -> alike (Float.add x Float.zero) y.
Proof.
  destruct x as [[|] | | | s m e], y as [[|] | | | s' m' e'];
    simpl; intros H; try discriminate H; auto.
Qed.

Lemma add_alike (x x' y : Float.float) :
  Float.truthy y = true -> alike x x' -> Float.add x y = Float.add x' y.
Proof.
  intros Hy H.
  destruct x as [s | s | | s m e], x' as [s' | s' | | s' m' e']; simpl in H;
    try discriminate H; try (inversion H; subst; reflexivity).
  destruct y; try discriminate Hy; reflexivity.
Qed.

Lemma flat_map_concat_map_reported
    (rate : NetworkStatsData -> option Float.float)
    (networkStats : list NetworkStatsData) :
  flat_map reported (map rate networkStats)
  = flat_map (fun iface => reported (rate iface)) networkStats.
Proof.
  induction networkStats as [| iface l IH]; simpl; [reflexivity |].
  now rewrite IH.
Qed.

Lemma sum_rates_reported (values : list (option Float.float)) :
  alike (sum_rates (map or_zero values)) (sum_rates (flat_map reported values)).
Proof.
  unfold sum_rates.
  cut (forall acc acc', alike acc acc' ->
         alike (fold_left Float.add (map or_zero values) acc)
               (fold_left Float.add (flat_map reported values) acc')).
  { intros H. apply H, alike_refl. }
  induction values as [| v values IH]; intros acc acc' Hacc; simpl.
  - exact Hacc.
  - destruct v as [x |]; simpl.
    + destruct (Float.truthy x) eqn:Hx; simpl.
      * apply IH. rewrite (add_alike acc acc' x Hx Hacc). apply alike_refl.
      * apply IH. now apply add_zero_alike.
    + apply IH. now apply add_zero_alike.
Qed.

Lemma to_mbps_alike (x y : Float.float) : alike x y -> to_mbps x = to_mbps y.
Proof.
  intros H.
  destruct x as [s | s | | s m e], y as [s' | s' | | s' m' e'];
    cbn [alike] in H; try discriminate H;
    inversion H; subst; reflexivity.
Qed.


(** ** One tick: published or skipped *)

Lemma interval_callback_resolved
    (cpuLoad : CurrentLoadData) (cpuTemp : CpuTemperatureData) (mem : MemData)
    (fsSize : list FsSizeData) (networkStats : list NetworkStatsData)
    (processes : ProcessesData) (time : TimeData) :
  interval_callback
    {| q_currentLoad := Resolved cpuLoad;
       q_cpuTemperature := Resolved cpuTemp;
       q_mem := Resolved mem;
       q_fsSize := Resolved fsSize;
       q_networkStats := Resolved networkStats;
       q_processes := Resolved processes;
       q_time := Resolved time |}
  = [ IoEmit (EvStats (stats cpuLoad cpuTemp mem fsSize networkStats time));
      IoEmit (EvProcesses (topProcesses processes)) ].
Proof. reflexivity. Qed.

Lemma interval_callback_rejected (q : Queries) :
  all_resolved q = false ->
  interval_callback q = [ConsoleError "Error fetching stats:"].
Proof.
  destruct q as [[a | ra] [b | rb] [c | rc] [d | rd] [e | re] [f | rf] [g | rg]];
    intros H; try discriminate H; reflexivity.
Qed.

Lemma interval_callback_published (q : Queries) :
  all_resolved q = true ->
  exists s top, interval_callback q = [IoEmit (EvStats s); IoEmit (EvProcesses top)].
Proof.
  intros H.
  destruct q as [[a | ra] [b | rb] [c | rc] [d | rd] [e | re] [f | rf] [g | rg]];
    try discriminate H.
  eexists. eexists. apply interval_callback_resolved.
Qed.

Lemma interval_callback_cases (q : Queries) :
  interval_callback q = [ConsoleError "Error fetching stats:"] \/
  exists s top, interval_callback q = [IoEmit (EvStats s); IoEmit (EvProcesses top)].
Proof.
  destruct (all_resolved q) eqn:H.
  - right. now apply interval_callback_published.
  - left. now apply interval_callback_rejected.
Qed.

Lemma received_emitted_to (socket : socket_id) (recipients : list socket_id)
    (e : event) (out : list output) :
  In socket recipients ->
  received socket (Emitted recipients e :: out) = e :: received socket out.
Proof.
  intros Hin. unfold received. simpl.
  destruct (in_dec string_dec socket recipients); [reflexivity | contradiction].
Qed.

Lemma received_emitted_past (socket : socket_id) (recipients : list socket_id)
    (e : event) (out : list output) :
  ~ In socket recipients ->
  received socket (Emitted recipients e :: out) = received socket out.
Proof.
  intros Hin. unfold received. simpl.
  destruct (in_dec string_dec socket recipients); [contradiction | reflexivity].
Qed.

Lemma step_interval_rejected (connected : list socket_id) (q : Queries) :
  all_resolved q = false ->
  step connected (IntervalSettled q)
  = (connected, [Logged "Error fetching stats:"]).
Proof.
  intros H. simpl. now rewrite interval_callback_rejected.
Qed.

(** C1, as stated, fails: when the temperature query alone is rejected, no
    snapshot is published, with or without a default temperature. *)
Lemma rejected_temperature_publishes_nothing :
  ~ exists s, In (IoEmit (EvStats s)) (interval_callback temperature_rejected).
Proof.
  intros [s Hin]. vm_compute in Hin.
  destruct Hin as [H | []]. discriminate H.
Qed.

(** C1, amended: in every tick in which a query fails (one of them, or
    several) the aggregation is abandoned: the callback only writes the
    failure to the error console, no socket is sent anything, and the set of
    connected sockets is unchanged. *)
Theorem failed_query_skips_the_tick (connected : list socket_id) (q : Queries) :
  all_resolved q = false ->
  interval_callback q = [ConsoleError "Error fetching stats:"] /\
  step connected (IntervalSettled q)
  = (connected, [Logged "Error fetching stats:"]) /\
  (forall socket,
      received socket (snd (step connected (IntervalSettled q))) = []).
Proof.
  intros H. pose proof (interval_callback_rejected q H) as Hcalls.
  split; [exact Hcalls | split].
  - cbn [step]. rewrite Hcalls. reflexivity.
  - intros socket. cbn [step snd]. rewrite Hcalls. reflexivity.
Qed.

Lemma failed_query_skips_the_tick_witness :
  all_resolved temperature_rejected = false /\
  step ["socket-1"; "socket-2"] (IntervalSettled temperature_rejected)
  = (["socket-1"; "socket-2"], [Logged "Error fetching stats:"]).
Proof.
  split; [reflexivity |].
  apply (failed_query_skips_the_tick ["socket-1"; "socket-2"] temperature_rejected).
  reflexivity.
Defined.

(** C5: when every query succeeds and the temperature has no [main] value,
    [stats] and [processes] are emitted to the connected sockets and the
    published [cpuTemp] is 0. *)
Theorem absent_temperature_is_zero
    (connected : list socket_id)
    (cpuLoad : CurrentLoadData) (mem : MemData)
    (fsSize : list FsSizeData) (networkStats : list NetworkStatsData)
    (processes : ProcessesData) (time : TimeData) :
  let q := {| q_currentLoad := Resolved cpuLoad;
              q_cpuTemperature := Resolved {| main := None |};
              q_mem := Resolved mem;
              q_fsSize := Resolved fsSize;
              q_networkStats := Resolved networkStats;
              q_processes := Resolved processes;
              q_time := Resolved time |} in
  let s := stats cpuLoad {| main := None |} mem fsSize networkStats time in
  step connected (IntervalSettled q)
  = (connected,
     [ Emitted connected (EvStats s);
       Emitted connected (EvProcesses (topProcesses processes)) ]) /\
  cpuTemp s = Num 0.
Proof. split; reflexivity. Qed.

(** C6: when [processes()] is rejected the tick emits nothing and logs the
    failure; whatever happens afterwards happens as it would have without
    that tick, so later ticks are served. *)
Theorem rejected_processes_skips_the_tick
    (connected : list socket_id) (q : Queries) (reason : string)
    (later : list input) :
  q_processes q = Rejected reason ->
  step connected (IntervalSettled q)
  = (connected, [Logged "Error fetching stats:"]) /\
  run connected (IntervalSettled q :: later)
  = (fst (run connected later),
     Logged "Error fetching stats:" :: snd (run connected later)).
Proof.
  intros Hq.
  assert (H : all_resolved q = false).
  { unfold all_resolved. rewrite Hq. simpl.
    now rewrite andb_false_r. }
  split.
  - now apply step_interval_rejected.
  - cbn [run]. rewrite (step_interval_rejected connected q H).
    destruct (run connected later). reflexivity.
Qed.

Lemma rejected_processes_skips_the_tick_witness :
  q_processes processes_rejected = Rejected "ps failed" /\
  step ["socket-1"] (IntervalSettled processes_rejected)
  = (["socket-1"], [Logged "Error fetching stats:"]) /\
  run ["socket-1"]
      [IntervalSettled processes_rejected; IntervalSettled sample_queries]
  = (fst (run ["socket-1"] [IntervalSettled sample_queries]),
     Logged "Error fetching stats:"
       :: snd (run ["socket-1"] [IntervalSettled sample_queries])).
Proof.
  split; [reflexivity |].
  apply (rejected_processes_skips_the_tick ["socket-1"] processes_rejected
           "ps failed" [IntervalSettled sample_queries]).
  reflexivity.
Defined.

(** C10: a tick emits either nothing (and logs), or [stats] and then
    [processes] to the same sockets; so every socket is sent either nothing,
    or the [stats] event followed by the [processes] event. *)
Theorem stats_and_processes_go_together
    (connected : list socket_id) (q : Queries) :
  let out := snd (step connected (IntervalSettled q)) in
  (out = [Logged "Error fetching stats:"] \/
   exists s top,
     out = [Emitted connected (EvStats s); Emitted connected (EvProcesses top)]) /\
  (forall socket,
      received socket out = [] \/
      exists s top, received socket out = [EvStats s; EvProcesses top]).
Proof.
  intros out. unfold out. cbn [step snd].
  destruct (interval_callback_cases q) as [H | (s & top & H)]; rewrite H;
    cbn [map perform].
  - split; [now left |]. intros socket. now left.
  - split; [right; now exists s, top |].
    intros socket. destruct (in_dec string_dec socket connected) as [Hin | Hout].
    + right. exists s, top. now rewrite !received_emitted_to.
    + left. now rewrite !received_emitted_past.
Qed.

(** ** The connection handler *)

Lemma ip_of_first_external (netInterfaces : list NetworkInterfacesData) :
  (exists before i after,
      netInterfaces = (before ++ i :: after)%list /\
      Forall passed_over before /\
      internal i = false /\ ip4 i <> "" /\
      ip_or_loopback (mainInterface netInterfaces) = ip4 i) \/
  (Forall passed_over netInterfaces /\
   ip_or_loopback (mainInterface netInterfaces) = "127.0.0.1").
Proof.
  induction netInterfaces as [| j l IH].
  - right. split; [constructor | reflexivity].
  - unfold mainInterface. cbn [find].
    destruct (internal j) eqn:Hint; cbn [negb andb].
    + fold (mainInterface l).
      destruct IH as [(before & i & after & -> & Hb & Hi & Hip & Heq) | [Hall Heq]].
      * left. exists (j :: before), i, after.
        repeat split; auto. constructor; [now left | exact Hb].
      * right. split; [constructor; [now left | exact Hall] | exact Heq].
    + destruct (String.eqb_spec (ip4 j) "") as [Hempty | Hfull]; cbn [negb].
      * fold (mainInterface l).
        destruct IH as [(before & i & after & -> & Hb & Hi & Hip & Heq) | [Hall Heq]].
        -- left. exists (j :: before), i, after.
           repeat split; auto. constructor; [now right | exact Hb].
        -- right. split; [constructor; [now right | exact Hall] | exact Heq].
      * left. exists [], j, l. cbn [ip_or_loopback].
        destruct (String.eqb_spec (ip4 j) ""); [contradiction |].
        repeat split; auto.
Qed.

(** C8: when both static queries succeed, the socket that connected is sent
    one [vm-info] event and nobody else is sent anything; its [status] is
    ["Online"], its [region] ["Local"], its [os] the distribution, a space
    and the release, its [kernel] and [instanceId] those of the system, and
    its [ip] the IPv4 address of the first interface that is not internal
    and has one, or ["127.0.0.1"] when there is none. *)
Theorem vm_info_payload
    (connected : list socket_id) (socket : socket_id)
    (osInfo : OsData) (netInterfaces : list NetworkInterfacesData) :
  let info := vm_info osInfo netInterfaces in
  snd (run connected
           [ Connection socket;
             StaticInfoSettled socket (Resolved osInfo) (Resolved netInterfaces) ])
  = [Emitted [socket] (EvVmInfo info)] /\
  instanceId info = hostname osInfo /\
  vm_status info = "Online" /\
  region info = "Local" /\
  os info = distro osInfo ++ " " ++ release osInfo /\
  vm_kernel info = kernel osInfo /\
  ((exists before i after,
       netInterfaces = (before ++ i :: after)%list /\
       Forall passed_over before /\
       internal i = false /\ ip4 i <> "" /\
       ip info = ip4 i) \/
   (Forall passed_over netInterfaces /\ ip info = "127.0.0.1")).
Proof.
  intros info. split; [| repeat (split; [reflexivity |])].
  - cbn [run step snd connection_handler]. simpl.
    destruct (string_dec socket socket) as [_ | Hne]; [reflexivity |].
    now contradiction Hne.
  - apply ip_of_first_external.
Qed.

Lemma connection_handler_rejected (socket : socket_id)
    (osInfo : outcome OsData)
    (netInterfaces : outcome (list NetworkInterfacesData)) :
  is_resolved osInfo && is_resolved netInterfaces = false ->
  connection_handler socket osInfo netInterfaces
  = [ConsoleError "Error fetching static info:"].
Proof.
  destruct osInfo, netInterfaces; intros H; try discriminate H; reflexivity.
Qed.

Lemma tick_serves_connected_alike (connected : list socket_id) (q : Queries)
    (a b : socket_id) :
  In a connected -> In b connected ->
  received a (snd (step connected (IntervalSettled q)))
  = received b (snd (step connected (IntervalSettled q))).
Proof.
  intros Ha Hb. cbn [step snd].
  destruct (interval_callback_cases q) as [H | (s & top & H)]; rewrite H;
    cbn [map perform].
  - reflexivity.
  - now rewrite !received_emitted_to.
Qed.

(** C9: when a static query of a connecting socket is rejected, that socket
    is sent no [vm-info] event (nothing is sent at all, the failure is
    logged) and it stays connected; the rest of the run is what it would
    have been after the connection alone; and in every tick that finds the
    socket connected it is sent what every other connected socket is sent,
    [stats] and [processes] when the tick's queries succeed. *)
Theorem failed_static_info_keeps_subscription
    (connected : list socket_id) (socket : socket_id)
    (osInfo : outcome OsData)
    (netInterfaces : outcome (list NetworkInterfacesData)) :
  is_resolved osInfo && is_resolved netInterfaces = false ->
  run connected [Connection socket; StaticInfoSettled socket osInfo netInterfaces]
  = (socket :: connected, [Logged "Error fetching static info:"]) /\
  (forall later,
      run connected
          (Connection socket :: StaticInfoSettled socket osInfo netInterfaces
             :: later)
      = (fst (run (socket :: connected) later),
         Logged "Error fetching static info:"
           :: snd (run (socket :: connected) later))) /\
  (forall state q other,
      In socket state -> In other state ->
      received socket (snd (step state (IntervalSettled q)))
      = received other (snd (step state (IntervalSettled q)))) /\
  (forall state q,
      In socket state -> all_resolved q = true ->
      exists s top,
        received socket (snd (step state (IntervalSettled q)))
        = [EvStats s; EvProcesses top]).
Proof.
  intros H. split; [| split; [| split]].
  - cbn [run step]. now rewrite (connection_handler_rejected _ _ _ H).
  - intros later. cbn [run step].
    rewrite (connection_handler_rejected _ _ _ H). cbn [map perform app].
    destruct (run (socket :: connected) later). reflexivity.
  - intros state q other Hs Ho. now apply tick_serves_connected_alike.
  - intros state q Hs Hq. cbn [step snd].
    destruct (interval_callback_published q Hq) as (s & top & Hc).
    exists s, top. rewrite Hc. cbn [map perform].
    now rewrite !received_emitted_to.
Qed.

Lemma failed_static_info_keeps_subscription_witness :
  is_resolved (@Rejected OsData "lsb_release failed")
  && is_resolved (@Resolved (list NetworkInterfacesData) []) = false /\
  run ["socket-1"]
      [ Connection "socket-2";
        StaticInfoSettled "socket-2" (Rejected "lsb_release failed") (Resolved []) ]
  = (["socket-2"; "socket-1"], [Logged "Error fetching static info:"]).
Proof.
  split; [reflexivity |].
  apply (failed_static_info_keeps_subscription ["socket-1"] "socket-2"
           (Rejected "lsb_release failed") (Resolved [])).
  reflexivity.
Defined.

(** * Further properties of the callback and of the handlers *)

(** ** Processes: which entries are published *)

Lemma StronglySorted_app_inv {A} (R : A -> A -> Prop) (l1 l2 : list A) :
  StronglySorted R (l1 ++ l2)%list ->
  forall a b, In a l1 -> In b l2 -> R a b.
Proof.
  induction l1 as [| x l1 IH]; simpl; intros Hs a b Ha Hb.
  - contradiction.
  - inversion Hs as [| ? ? Hs' Hx]; subst.
    destruct Ha as [-> | Ha].
    + rewrite Forall_forall in Hx. apply Hx, in_or_app. now right.
    + now apply IH.
Qed.

(** X1: the published entries are those of the processes with the highest
    cpu: together with the processes left out they are the source list
    rearranged, there are [min 5 n] of them, and no process left out has a
    higher cpu than a published one. *)
Theorem published_are_the_highest (processes : ProcessesData) :
  let picked := firstn 5 (sort by_cpu_descending (processes_list processes)) in
  topProcesses processes = map to_entry picked /\
  Permutation (picked ++ not_published processes)%list
              (processes_list processes) /\
  List.length (topProcesses processes)
  = Nat.min 5 (List.length (processes_list processes)) /\
  (forall p d, In p picked -> In d (not_published processes) ->
               (cpu d <= cpu p)%Q).
Proof.
  intros picked. unfold not_published, picked.
  split; [reflexivity | split; [| split]].
  - rewrite firstn_skipn. apply sort_Permutation.
  - unfold topProcesses. rewrite length_map, length_firstn.
    now rewrite (Permutation_length (sort_Permutation _)).
  - intros p d Hp Hd.
    apply (StronglySorted_app_inv cpu_not_below
             (firstn 5 (sort by_cpu_descending (processes_list processes)))
             (skipn 5 (sort by_cpu_descending (processes_list processes))));
      [| exact Hp | exact Hd].
    rewrite firstn_skipn. apply sort_sorted.
Qed.

(** X2: every published entry is made from a process of the source list: it
    has its pid, name and user, its cpu and mem rounded to one decimal, and
    the status ["Sleeping"] when the state is exactly ["sleeping"],
    ["Running"] for any other state. *)
Theorem published_entries_come_from_the_source (processes : ProcessesData) :
  Forall
    (fun e =>
       exists p,
         In p (processes_list processes) /\
         pe_pid e = pid p /\ pe_name e = name p /\ pe_user e = user p /\
         pe_cpu e = toFixed1 (Num (cpu p)) /\
         pe_mem e = toFixed1 (Num (mem p)) /\
         (state p = "sleeping" /\ pe_status e = "Sleeping" \/
          state p <> "sleeping" /\ pe_status e = "Running"))
    (topProcesses processes).
Proof.
  apply Forall_forall. intros e He. unfold topProcesses in He.
  apply in_map_iff in He. destruct He as (p & <- & Hp).
  exists p. split.
  - apply (Permutation_in _ (sort_Permutation _)).
    rewrite <- (firstn_skipn 5). apply in_or_app. left. exact Hp.
  - unfold to_entry. cbn [pe_pid pe_name pe_user pe_cpu pe_mem pe_status].
    repeat (split; [reflexivity |]).
    destruct (String.eqb_spec (state p) "sleeping"); [left | right]; now split.
Qed.

Lemma insert_in_front (x : ProcessesProcessData)
    (l : list ProcessesProcessData) :
  Forall (cpu_not_below x) l -> insert by_cpu_descending x l = x :: l.
Proof.
  destruct l as [| y l]; [reflexivity |].
  intros H. inversion H as [| ? ? Hy _]; subst. simpl.
  apply by_cpu_descending_le in Hy. now rewrite Hy.
Qed.

Lemma sort_sorted_list (l : list ProcessesProcessData) :
  StronglySorted cpu_not_below l -> sort by_cpu_descending l = l.
Proof.
  induction 1 as [| x l Hs IH Hx]; simpl; [reflexivity |].
  rewrite IH. now apply insert_in_front.
Qed.

(** X3: when the source list is already in non-increasing order of cpu, the
    published entries are those of its first five processes, in that
    order. *)
Theorem sorted_source_is_published_as_is (processes : ProcessesData) :
  StronglySorted cpu_not_below (processes_list processes) ->
  topProcesses processes = map to_entry (firstn 5 (processes_list processes)).
Proof.
  intros H. unfold topProcesses. now rewrite sort_sorted_list.
Qed.

(** ** Rounding: how far a published figure is from the measured one *)

Lemma nearest_tenth_close (x : Q) :
  (Qabs ((nearest_tenth x # 10) - x) <= 1 # 20)%Q.
Proof.
  unfold nearest_tenth.
  pose proof (Qfloor_le (x * 10 + (1 # 2))) as Hlow.
  pose proof (Qlt_floor (x * 10 + (1 # 2))) as Hhigh.
  set (k := Qfloor (x * 10 + (1 # 2))) in *.
  rewrite inject_Z_plus in Hhigh. change (inject_Z 1) with 1%Q in Hhigh.
  assert (Hk : (k # 10 == inject_Z k * (1 # 10))%Q).
  { unfold Qeq, inject_Z. simpl. lia. }
  apply Qabs_Qle_condition. rewrite Hk. split; lra.
Qed.

Lemma tenths_close (x : Q) : (Qabs ((tenths x # 10) - x) <= 1 # 20)%Q.
Proof.
  unfold tenths. destruct (Qle_bool 0 x).
  - apply nearest_tenth_close.
  - pose proof (nearest_tenth_close (- x)) as H.
    apply Qabs_Qle_condition in H. apply Qabs_Qle_condition.
    set (k := nearest_tenth (- x)) in *.
    assert (Hk : (k # 10 == inject_Z k * (1 # 10))%Q)
      by (unfold Qeq, inject_Z; simpl; lia).
    assert (Hk' : (- k # 10 == - (inject_Z k * (1 # 10)))%Q)
      by (unfold Qeq, inject_Z; simpl; lia).
    rewrite Hk in H. rewrite Hk'. split; lra.
Qed.

Lemma toFixed1_close (x : Q) :
  exists n : Z,
    toFixed1 (Num x) = Num (Qred (n # 10)) /\
    (Qabs ((n # 10) - x) <= 1 # 20)%Q.
Proof.
  exists (tenths x). split; [reflexivity | apply tenths_close].
Qed.

Lemma gib_close (bytes : Z) :
  exists n : Z,
    toFixed1 (div_1024_pow_3 bytes) = Num (Qred (n # 10)) /\
    (Qabs ((n # 10) - (bytes # 2 ^ 30)) <= 1 # 20)%Q.
Proof.
  unfold div_1024_pow_3.
  destruct (toFixed1_close (Qred (bytes # 2 ^ 30))) as (n & Hn & Hclose).
  exists n. split; [exact Hn |].
  now rewrite Qred_correct in Hclose.
Qed.

(** X4: each rounded figure of [stats] that comes from a byte count or from
    the load is read back from a numeral with one decimal, [n / 10] for an
    integer [n], and that numeral is within 0.05 of the measured value (the
    load, or the byte count divided by [1024 ** 3]): [toFixed(1)] prints a
    nearest tenth.  The bound is on the numeral printed; the figure sent is
    the double that [parseFloat] reads from it. *)
Theorem rounded_figures_are_close
    (cpuLoad : CurrentLoadData) (cpuTemp : CpuTemperatureData) (mem : MemData)
    (fsSize : list FsSizeData) (networkStats : list NetworkStatsData)
    (time : TimeData) :
  let s := stats cpuLoad cpuTemp mem fsSize networkStats time in
  (exists n : Z,
      cpuUsage s = Num (Qred (n # 10)) /\
      (Qabs ((n # 10) - currentLoad cpuLoad) <= 1 # 20)%Q) /\
  (exists n : Z,
      memoryUsed s = Num (Qred (n # 10)) /\
      (Qabs ((n # 10) - (active mem # 2 ^ 30)) <= 1 # 20)%Q) /\
  (exists n : Z,
      memoryTotal s = Num (Qred (n # 10)) /\
      (Qabs ((n # 10) - (total mem # 2 ^ 30)) <= 1 # 20)%Q) /\
  (exists n : Z,
      storageUsed s = Num (Qred (n # 10)) /\
      (Qabs ((n # 10) - (used (mainDrive fsSize) # 2 ^ 30)) <= 1 # 20)%Q) /\
  (exists n : Z,
      storageTotal s = Num (Qred (n # 10)) /\
      (Qabs ((n # 10) - (size (mainDrive fsSize) # 2 ^ 30)) <= 1 # 20)%Q).
Proof.
  intros s. unfold s, stats.
  cbn [cpuUsage memoryUsed memoryTotal storageUsed storageTotal].
  split; [apply toFixed1_close |].
  repeat split; apply gib_close.
Qed.

(** X5: a load between 0 and 100 percent is published as a cpu usage
    between 0 and 100: rounding does not leave the range. *)
Theorem cpu_usage_stays_a_percentage
    (cpuLoad : CurrentLoadData) (cpuTemp : CpuTemperatureData) (mem : MemData)
    (fsSize : list FsSizeData) (networkStats : list NetworkStatsData)
    (time : TimeData) :
  (0 <= currentLoad cpuLoad)%Q -> (currentLoad cpuLoad <= 100)%Q ->
  let s := stats cpuLoad cpuTemp mem fsSize networkStats time in
  Number.le (Num 0) (cpuUsage s) /\ Number.le (cpuUsage s) (Num 100).
Proof.
  intros Hlow Hhigh s. unfold s, stats. cbn [cpuUsage]. split.
  - change (Num 0) with (toFixed1 (Num 0)). now apply toFixed1_mono.
  - change (Num 100) with (toFixed1 (Num 100)). now apply toFixed1_mono.
Qed.

Lemma mainDrive_largest (fsSize : list FsSizeData) :
  Forall (fun v => size v <= size (mainDrive fsSize)) fsSize.
Proof.
  destruct fsSize as [| first rest]; [constructor |].
  destruct (reduce_larger_last_maximum rest first)
    as (before & v & after & Hsplit & Hfold & Hbefore & Hafter).
  rewrite mainDrive_cons, Hfold, Hsplit.
  apply Forall_app. split; [exact Hbefore |].
  constructor; [lia |].
  eapply Forall_impl; [| exact Hafter]. simpl. intros; lia.
Qed.

Lemma mainDrive_nonneg (fsSize : list FsSizeData) :
  Forall (fun v => 0 <= used v /\ 0 <= size v) fsSize ->
  0 <= used (mainDrive fsSize) /\ 0 <= size (mainDrive fsSize).
Proof.
  destruct fsSize as [| first rest]; intros H.
  - simpl. lia.
  - rewrite Forall_forall in H. apply H, mainDrive_In.
Qed.

(** X6: when the source reports no negative byte count, no memory or storage
    figure is negative. *)
Theorem byte_figures_are_not_negative
    (cpuLoad : CurrentLoadData) (cpuTemp : CpuTemperatureData) (mem : MemData)
    (fsSize : list FsSizeData) (networkStats : list NetworkStatsData)
    (time : TimeData) :
  0 <= active mem -> 0 <= total mem ->
  Forall (fun v => 0 <= used v /\ 0 <= size v) fsSize ->
  let s := stats cpuLoad cpuTemp mem fsSize networkStats time in
  Number.le (Num 0) (memoryUsed s) /\ Number.le (Num 0) (memoryTotal s) /\
  Number.le (Num 0) (storageUsed s) /\ Number.le (Num 0) (storageTotal s).
Proof.
  intros Hactive Htotal Hfs s.
  destruct (mainDrive_nonneg fsSize Hfs) as [Hused Hsize].
  unfold s, stats. cbn [memoryUsed memoryTotal storageUsed storageTotal].
  assert (H0 : Num 0 = toFixed1 (div_1024_pow_3 0)) by reflexivity.
  rewrite H0.
  repeat split; apply toFixed1_mono, div_1024_pow_3_mono; assumption.
Qed.

(** X7: the published storage total is the rounded size of one volume of
    the list (0 when the list is empty), and no volume of the list has a
    larger rounded size: it is the largest of the rounded sizes, not a sum
    of them. *)
Theorem storage_total_is_the_largest
    (cpuLoad : CurrentLoadData) (cpuTemp : CpuTemperatureData) (mem : MemData)
    (fsSize : list FsSizeData) (networkStats : list NetworkStatsData)
    (time : TimeData) :
  let s := stats cpuLoad cpuTemp mem fsSize networkStats time in
  (fsSize = [] /\ storageTotal s = Num 0 \/
   exists v,
     In v fsSize /\ storageTotal s = toFixed1 (div_1024_pow_3 (size v))) /\
  Forall
    (fun v => Number.le (toFixed1 (div_1024_pow_3 (size v))) (storageTotal s))
    fsSize.
Proof.
  intros s. unfold s, stats. cbn [storageTotal]. split.
  - destruct fsSize as [| first rest].
    + left. split; reflexivity.
    + right. exists (mainDrive (first :: rest)).
      split; [apply mainDrive_In | reflexivity].
  - eapply Forall_impl; [| apply mainDrive_largest].
    intros v Hv. now apply toFixed1_mono, div_1024_pow_3_mono.
Qed.

Lemma larger_assoc (a b c : FsSizeData) :
  larger (larger a b) c = larger a (larger b c).
Proof.
  unfold larger.
  destruct (Z.gtb_spec (size a) (size b)); destruct (Z.gtb_spec (size b) (size c));
    cbn iota;
    repeat match goal with
           | |- context [?x >? ?y] => destruct (Z.gtb_spec x y)
           end; try reflexivity; exfalso; lia.
Qed.

Lemma fold_left_larger (l : list FsSizeData) (a b : FsSizeData) :
  fold_left larger l (larger a b) = larger a (fold_left larger l b).
Proof.
  revert b. induction l as [| c l IH]; intros b; simpl; [reflexivity |].
  now rewrite larger_assoc, IH.
Qed.

(** X8: the selection composes: the main drive of two lists of volumes put
    one after the other is the one the reduce step picks between the main
    drive of the first list and the main drive of the second. *)
Theorem mainDrive_app (a b : FsSizeData) (l1 l2 : list FsSizeData) :
  mainDrive ((a :: l1) ++ b :: l2)%list
  = mainDrive [mainDrive (a :: l1); mainDrive (b :: l2)].
Proof.
  change (mainDrive [mainDrive (a :: l1); mainDrive (b :: l2)])
    with (larger (mainDrive (a :: l1)) (mainDrive (b :: l2))).
  rewrite <- app_comm_cons, !mainDrive_cons, fold_left_app. simpl.
  apply fold_left_larger.
Qed.

(** ** Network: totals of rates that are not negative *)

Section Rounding.

Variables prec emax : Z.

Lemma shr_1_nonneg (mrs : shr_record) :
  0 <= shr_m mrs -> 0 <= shr_m (shr_1 mrs).
Proof.
  destruct mrs as [m r s]. destruct m as [| [p | p |] | p]; simpl; lia.
Qed.

Lemma iter_shr_1_nonneg (n : positive) (mrs : shr_record) :
  0 <= shr_m mrs -> 0 <= shr_m (iter_pos shr_1 n mrs).
Proof.
  revert mrs. induction n as [n IH | n IH |]; intros mrs H; simpl.
  - apply IH, IH, shr_1_nonneg, H.
  - apply IH, IH, H.
  - apply shr_1_nonneg, H.
Qed.

Lemma shr_fexp_nonneg (m e : Z) (l : location) :
  0 <= m -> 0 <= shr_m (fst (shr_fexp prec emax m e l)).
Proof.
  intros H. unfold shr_fexp, shr.
  assert (H0 : 0 <= shr_m (shr_record_of_loc m l))
    by (destruct l as [| []]; exact H).
  destruct (fexp prec emax (Zdigits2 m + e) - e); simpl;
    [exact H0 | now apply iter_shr_1_nonneg | exact H0].
Qed.

Lemma round_nearest_even_nonneg (m : Z) (l : location) :
  0 <= m -> 0 <= round_nearest_even m l.
Proof.
  intros H. destruct l as [| []]; simpl; try lia.
  destruct (Z.even m); lia.
Qed.

(** Rounding a mantissa that is not negative gives a zero, a finite number
    or an infinity of the sign asked for, never NaN. *)
Lemma binary_round_aux_has_sign (sx : bool) (mx ex : Z) (lx : location) :
  0 <= mx -> has_sign sx (binary_round_aux prec emax sx mx ex lx).
Proof.
  intros H. unfold binary_round_aux.
  pose proof (shr_fexp_nonneg mx ex lx H) as H1.
  destruct (shr_fexp prec emax mx ex lx) as [mrs' e']. simpl in H1.
  pose proof (shr_fexp_nonneg
                (round_nearest_even (shr_m mrs') (loc_of_shr_record mrs'))
                e' loc_Exact (round_nearest_even_nonneg _ _ H1)) as H2.
  destruct (shr_fexp prec emax _ e' loc_Exact) as [mrs'' e'']. simpl in H2.
  destruct (shr_m mrs'') as [| m | m]; simpl.
  - reflexivity.
  - destruct (e'' <=? emax - prec)%Z; reflexivity.
  - lia.
Qed.

Lemma binary_round_has_sign (sx : bool) (mx : positive) (ex : Z) :
  has_sign sx (binary_round prec emax sx mx ex).
Proof.
  unfold binary_round. destruct (shl_align mx ex _) as [mz ez].
  apply binary_round_aux_has_sign. lia.
Qed.

End Rounding.

Lemma add_has_sign_false (x y : Float.float) :
  has_sign false x -> has_sign false y -> has_sign false (Float.add x y).
Proof.
  destruct x as [sx | sx | | sx mx ex], y as [sy | sy | | sy my ey];
    simpl; intros Hx Hy; subst; try contradiction; try reflexivity.
  apply binary_round_has_sign.
Qed.

Lemma mul_has_sign_false (x : Float.float) (m : positive) (e : Z) :
  has_sign false x -> has_sign false (Float.mul x (S754_finite false m e)).
Proof.
  destruct x as [sx | sx | | sx mx ex]; simpl; intros Hx; subst;
    try contradiction; try reflexivity.
  apply binary_round_aux_has_sign. lia.
Qed.

Lemma div_has_sign_false (x : Float.float) (m : positive) (e : Z) :
  has_sign false x -> has_sign false (Float.div x (S754_finite false m e)).
Proof.
  destruct x as [sx | sx | | sx mx ex]; simpl; intros Hx; subst;
    try contradiction; try reflexivity.
  unfold SFdiv_core_binary.
  set (m' := match _ with Zpos _ => _ | Z0 => _ | Zneg _ => _ end).
  assert (Hm' : 0 <= m').
  { unfold m'. destruct (_ - _ - _) as [| p | p]; try lia.
    apply Z.shiftl_nonneg. lia. }
  pose proof (Z.div_pos m' (Zpos m) Hm' ltac:(lia)) as Hq.
  unfold Z.div in Hq. destruct (Z.div_eucl m' (Zpos m)) as [q r].
  apply binary_round_aux_has_sign. exact Hq.
Qed.

Lemma or_zero_has_sign_false (v : option Float.float) :
  not_below_zero v -> has_sign false (or_zero v).
Proof.
  destruct v as [[s | [|] | | [|] m e] |]; simpl; intros H;
    try contradiction; reflexivity.
Qed.

Lemma sum_has_sign_false (rates : list Float.float) :
  Forall (has_sign false) rates -> has_sign false (sum_rates rates).
Proof.
  unfold sum_rates.
  assert (H0 : has_sign false Float.zero) by reflexivity.
  revert H0. generalize Float.zero as acc.
  induction rates as [| r rates IH]; intros acc Hacc H; simpl.
  - exact Hacc.
  - inversion H; subst. apply IH; [| assumption].
    now apply add_has_sign_false.
Qed.

Lemma value_has_sign_false (x : Float.float) :
  has_sign false x -> zero_or_more (Float.value x).
Proof.
  destruct x as [s | s | | s m e]; cbn [has_sign]; intros H; subst;
    try contradiction; cbn [Float.value zero_or_more]; try exact I.
  - apply Qle_refl.
  - destruct e as [| p | p]; unfold Qle; cbn [Qnum Qden]; [lia | | lia].
    assert (0 < 2 ^ Z.pos p) by (apply Z.pow_pos_nonneg; lia). nia.
Qed.

Lemma toFixed1_zero_or_more (x : number) :
  zero_or_more x -> zero_or_more (toFixed1 x).
Proof.
  destruct x as [q | | [|]]; cbn [zero_or_more toFixed1]; try tauto.
  intros H. pose proof (tenths_mono 0 q H) as Ht.
  change (tenths 0) with 0 in Ht.
  rewrite Qred_correct. unfold Qle. cbn [Qnum Qden]. lia.
Qed.

Lemma to_mbps_zero_or_more (x : Float.float) :
  has_sign false x -> zero_or_more (to_mbps x).
Proof.
  intros H. unfold to_mbps.
  apply toFixed1_zero_or_more, value_has_sign_false.
  apply (div_has_sign_false _ 8589934592000000 (-33)).
  apply (mul_has_sign_false _ 4503599627370496 (-49)). exact H.
Qed.

(** X9: when no interface reports a negative rate, [networkDown] and
    [networkUp] are finite numbers that are not negative, or [+Infinity]
    (a sum that overflows); they are never NaN and never negative. *)
Theorem network_totals_are_not_negative
    (cpuLoad : CurrentLoadData) (cpuTemp : CpuTemperatureData) (mem : MemData)
    (fsSize : list FsSizeData) (networkStats : list NetworkStatsData)
    (time : TimeData) :
  Forall (fun iface => not_below_zero (rx_sec iface) /\
                       not_below_zero (tx_sec iface)) networkStats ->
  let s := stats cpuLoad cpuTemp mem fsSize networkStats time in
  zero_or_more (networkDown s) /\ zero_or_more (networkUp s).
Proof.
  intros H s. unfold s, stats. cbn [networkDown networkUp].
  unfold netRxSec, netTxSec.
  rewrite (reduce_is_sum rx_sec), (reduce_is_sum tx_sec).
  split; apply to_mbps_zero_or_more, sum_has_sign_false, Forall_map;
    (eapply Forall_impl; [| exact H]); intros iface [Hrx Htx];
    now apply or_zero_has_sign_false.
Qed.

(** X10: while no interface has a rate (an empty list, or every [rx_sec],
    resp. [tx_sec], missing, NaN or 0, as in the first sample after start),
    the total is 0. *)
Theorem totals_without_rates_are_zero
    (cpuLoad : CurrentLoadData) (cpuTemp : CpuTemperatureData) (mem : MemData)
    (fsSize : list FsSizeData) (networkStats : list NetworkStatsData)
    (time : TimeData) :
  let s := stats cpuLoad cpuTemp mem fsSize networkStats time in
  (Forall (fun iface => reported (rx_sec iface) = []) networkStats ->
   networkDown s = Num 0) /\
  (Forall (fun iface => reported (tx_sec iface) = []) networkStats ->
   networkUp s = Num 0).
Proof.
  intros s.
  assert (H : forall rate : NetworkStatsData -> option Float.float,
             Forall (fun iface => reported (rate iface) = []) networkStats ->
             to_mbps (fold_left (fun acc iface => Float.add acc (or_zero (rate iface)))
                                networkStats Float.zero) = Num 0).
  { intros rate Hnone.
    rewrite (reduce_is_sum rate), <- (map_map rate or_zero).
    rewrite (to_mbps_alike _ _ (sum_rates_reported (map rate networkStats))).
    rewrite flat_map_concat_map_reported.
    assert (Hnil : flat_map (fun iface => reported (rate iface)) networkStats = []).
    { induction Hnone as [| iface l Hi _ IH]; simpl; [reflexivity |].
      now rewrite Hi, IH. }
    rewrite Hnil. reflexivity. }
  split; intros Hnone; apply H; exact Hnone.
Qed.

(** ** The connection handler: the address sent *)

Lemma find_filter {A} (f : A -> bool) (l : list A) :
  find f (filter f l) = find f l.
Proof.
  induction l as [| x l IH]; simpl; [reflexivity |].
  destruct (f x) eqn:Hx; simpl; [now rewrite Hx | exact IH].
Qed.

Lemma mainInterface_filter (netInterfaces : list NetworkInterfacesData) :
  mainInterface (filter external_with_ip4 netInterfaces)
  = mainInterface netInterfaces.
Proof. apply (find_filter external_with_ip4). Qed.

(** X11: the [ip] of a [vm-info] payload is never empty; it is ["127.0.0.1"]
    or the IPv4 address of an interface of the list that is not internal;
    and the interfaces that are internal or without an IPv4 address have no
    influence on the payload. *)
Theorem vm_info_ip_is_an_address
    (osInfo : OsData) (netInterfaces : list NetworkInterfacesData) :
  let info := vm_info osInfo netInterfaces in
  ip info <> "" /\
  (ip info = "127.0.0.1" \/
   exists i, In i netInterfaces /\ internal i = false /\ ip4 i = ip info) /\
  vm_info osInfo (filter external_with_ip4 netInterfaces) = info.
Proof.
  intros info. unfold info, vm_info. cbn [ip].
  destruct (ip_of_first_external netInterfaces)
    as [(before & i & after & Hsplit & _ & Hext & Hip & Heq) | [_ Heq]].
  - split; [| split].
    + rewrite Heq. exact Hip.
    + right. exists i. split; [rewrite Hsplit; apply in_elt | auto].
    + now rewrite mainInterface_filter.
  - split; [| split].
    + rewrite Heq. discriminate.
    + now left.
    + now rewrite mainInterface_filter.
Qed.

(** ** The event loop over a whole run *)

Lemma run_cons (connected : list socket_id) (i : input) (inputs : list input) :
  run connected (i :: inputs)
  = (fst (run (fst (step connected i)) inputs),
     (snd (step connected i) ++ snd (run (fst (step connected i)) inputs))%list).
Proof.
  cbn [run]. destruct (step connected i) as [connected' out]. cbn [fst snd].
  destruct (run connected' inputs) as [connected'' out']. reflexivity.
Qed.


Lemma received_app (socket : socket_id) (out out' : list output) :
  received socket (out ++ out')%list
  = (received socket out ++ received socket out')%list.
Proof. unfold received. apply flat_map_app. Qed.

(** What one input can put out. *)
Lemma step_output_cases (connected : list socket_id) (i : input) :
  snd (step connected i) = [] \/
  (exists message, snd (step connected i) = [Logged message]) \/
  (exists s top,
      snd (step connected i)
      = [Emitted connected (EvStats s); Emitted connected (EvProcesses top)]) \/
  (exists socket osInfo netInterfaces,
      i = StaticInfoSettled socket (Resolved osInfo) (Resolved netInterfaces) /\
      snd (step connected i)
      = [Emitted (if in_dec string_dec socket connected then [socket] else [])
                 (EvVmInfo (vm_info osInfo netInterfaces))]).
Proof.
  destruct i as [socket | socket osInfo netInterfaces | socket | q]; cbn [step snd].
  - now left.
  - destruct osInfo as [osInfo | reason], netInterfaces as [netInterfaces | reason'].
    + right. right. right. exists socket, osInfo, netInterfaces. now split.
    + right. left. now eexists.
    + right. left. now eexists.
    + right. left. now eexists.
  - now left.
  - destruct (interval_callback_cases q) as [H | (s & top & H)]; rewrite H.
    + right. left. now eexists.
    + right. right. left. now exists s, top.
Qed.





Lemma step_received_cases (connected : list socket_id) (socket : socket_id)
    (i : input) :
  received socket (snd (step connected i)) = [] \/
  (exists s top,
      received socket (snd (step connected i)) = [EvStats s; EvProcesses top]) \/
  (exists osInfo netInterfaces,
      i = StaticInfoSettled socket (Resolved osInfo) (Resolved netInterfaces) /\
      received socket (snd (step connected i))
      = [EvVmInfo (vm_info osInfo netInterfaces)]).
Proof.
  destruct (step_output_cases connected i)
    as [H | [(m & H) | [(s & top & H) | (s' & o & n & Hi & H)]]]; rewrite H.
  - now left.
  - now left.
  - destruct (in_dec string_dec socket connected) as [Hin | Hout].
    + right. left. exists s, top. now rewrite !received_emitted_to.
    + left. now rewrite !received_emitted_past.
  - destruct (in_dec string_dec socket
                (if in_dec string_dec s' connected then [s'] else []))
      as [Hin | Hout].
    + right. right. exists o, n. rewrite received_emitted_to by exact Hin.
      split; [| reflexivity]. rewrite Hi.
      destruct (in_dec string_dec s' connected); [| contradiction].
      destruct Hin as [-> | []]. reflexivity.
    + left. now rewrite received_emitted_past.
Qed.

(** X15: a [vm-info] event that a socket receives was made by its own
    handshake, from the results of the two static queries started for it;
    a tick never carries one and the handshake of another socket never
    reaches it. *)
Theorem vm_info_comes_from_own_handshake
    (connected : list socket_id) (socket : socket_id) (inputs : list input)
    (info : VmInfo) :
  In (EvVmInfo info) (received socket (snd (run connected inputs))) ->
  exists osInfo netInterfaces,
    In (StaticInfoSettled socket (Resolved osInfo) (Resolved netInterfaces))
       inputs /\
    info = vm_info osInfo netInterfaces.
Proof.
  revert connected. induction inputs as [| i inputs IH]; intros connected Hin.
  - contradiction.
  - rewrite run_cons in Hin. cbn [snd] in Hin. rewrite received_app in Hin.
    apply in_app_or in Hin. destruct Hin as [Hin | Hin].
    + destruct (step_received_cases connected socket i)
        as [H | [(s & top & H) | (o & n & Hi & H)]]; rewrite H in Hin.
      * contradiction.
      * destruct Hin as [Hin | [Hin | []]]; discriminate Hin.
      * destruct Hin as [Hin | []]. injection Hin as <-.
        exists o, n. split; [left; now symmetry | reflexivity].
    + destruct (IH _ Hin) as (o & n & Hi & Heq).
      exists o, n. split; [now right | exact Heq].
Qed.

Lemma paired_app (l l' : list event) :
  paired l -> paired l' -> paired (l ++ l')%list.
Proof.
  induction 1; intros H'; simpl; try constructor; auto.
Qed.

(** X16: over any run, the events a socket receives are [vm-info] events and
    pairs made of a [stats] event immediately followed by a [processes]
    event: no [stats] event without its [processes] event, none the other
    way round, and nothing in between the two. *)
Theorem received_stream_is_paired
    (connected : list socket_id) (socket : socket_id) (inputs : list input) :
  paired (received socket (snd (run connected inputs))).
Proof.
  revert connected. induction inputs as [| i inputs IH]; intros connected.
  - constructor.
  - rewrite run_cons. cbn [snd]. rewrite received_app.
    apply paired_app; [| apply IH].
    destruct (step_received_cases connected socket i)
      as [H | [(s & top & H) | (o & n & _ & H)]]; rewrite H;
      repeat constructor.
Qed.

(** ** The properties that have a hypothesis, at the sample inputs *)

Lemma sorted_source_is_published_as_is_witness :
  StronglySorted cpu_not_below (processes_list sorted_processes) /\
  topProcesses sorted_processes
  = map to_entry (firstn 5 (processes_list sorted_processes)).
Proof.
  assert (H : StronglySorted cpu_not_below (processes_list sorted_processes))
    by (repeat constructor; vm_compute; discriminate).
  split; [exact H |].
  exact (sorted_source_is_published_as_is sorted_processes H).
Defined.

Lemma cpu_usage_stays_a_percentage_witness :
  (0 <= currentLoad sample_cpuLoad)%Q /\
  (currentLoad sample_cpuLoad <= 100)%Q /\
  Number.le (Num 0)
    (cpuUsage (stats sample_cpuLoad sample_cpuTemp sample_mem sample_fsSize
                 sample_networkStats sample_time)) /\
  Number.le
    (cpuUsage (stats sample_cpuLoad sample_cpuTemp sample_mem sample_fsSize
                 sample_networkStats sample_time))
    (Num 100).
Proof.
  assert (Hlow : (0 <= currentLoad sample_cpuLoad)%Q)
    by (vm_compute; discriminate).
  assert (Hhigh : (currentLoad sample_cpuLoad <= 100)%Q)
    by (vm_compute; discriminate).
  split; [exact Hlow | split; [exact Hhigh |]].
  exact (cpu_usage_stays_a_percentage sample_cpuLoad sample_cpuTemp sample_mem
           sample_fsSize sample_networkStats sample_time Hlow Hhigh).
Defined.

Lemma byte_figures_are_not_negative_witness :
  0 <= active sample_mem /\ 0 <= total sample_mem /\
  Forall (fun v => 0 <= used v /\ 0 <= size v) sample_fsSize /\
  Number.le (Num 0)
    (storageUsed (stats sample_cpuLoad sample_cpuTemp sample_mem sample_fsSize
                    sample_networkStats sample_time)).
Proof.
  assert (Hactive : 0 <= active sample_mem) by (vm_compute; discriminate).
  assert (Htotal : 0 <= total sample_mem) by (vm_compute; discriminate).
  assert (Hfs : Forall (fun v => 0 <= used v /\ 0 <= size v) sample_fsSize)
    by (repeat constructor; vm_compute; discriminate).
  split; [exact Hactive | split; [exact Htotal | split; [exact Hfs |]]].
  apply (byte_figures_are_not_negative sample_cpuLoad sample_cpuTemp sample_mem
           sample_fsSize sample_networkStats sample_time Hactive Htotal Hfs).
Defined.

Lemma network_totals_are_not_negative_witness :
  Forall (fun iface => not_below_zero (rx_sec iface) /\
                       not_below_zero (tx_sec iface)) sample_networkStats /\
  zero_or_more
    (networkDown (stats sample_cpuLoad sample_cpuTemp sample_mem sample_fsSize
                    sample_networkStats sample_time)) /\
  zero_or_more
    (networkUp (stats sample_cpuLoad sample_cpuTemp sample_mem sample_fsSize
                  sample_networkStats sample_time)).
Proof.
  assert (H : Forall (fun iface => not_below_zero (rx_sec iface) /\
                                   not_below_zero (tx_sec iface))
                     sample_networkStats)
    by (repeat constructor).
  split; [exact H |].
  exact (network_totals_are_not_negative sample_cpuLoad sample_cpuTemp
           sample_mem sample_fsSize sample_networkStats sample_time H).
Defined.

Lemma totals_without_rates_are_zero_witness :
  Forall (fun iface => reported (rx_sec iface) = [])
         [ {| rx_sec := None; tx_sec := None |};
           {| rx_sec := Some Float.zero; tx_sec := Some (Float.of_Z 18750) |} ] /\
  networkDown
    (stats sample_cpuLoad sample_cpuTemp sample_mem sample_fsSize
       [ {| rx_sec := None; tx_sec := None |};
         {| rx_sec := Some Float.zero; tx_sec := Some (Float.of_Z 18750) |} ]
       sample_time)
  = Num 0.
Proof.
  assert (H : Forall (fun iface => reported (rx_sec iface) = [])
                [ {| rx_sec := None; tx_sec := None |};
                  {| rx_sec := Some Float.zero;
                     tx_sec := Some (Float.of_Z 18750) |} ])
    by (repeat constructor).
  split; [exact H |].
  exact (proj1 (totals_without_rates_are_zero sample_cpuLoad sample_cpuTemp
                  sample_mem sample_fsSize _ sample_time) H).
Defined.



Lemma vm_info_comes_from_own_handshake_witness :
  In (EvVmInfo (vm_info sample_osInfo sample_netInterfaces))
     (received "socket-2"
        (snd (run ["socket-1"]
                  [ Connection "socket-2";
                    IntervalSettled sample_queries;
                    StaticInfoSettled "socket-2" (Resolved sample_osInfo)
                      (Resolved sample_netInterfaces) ]))) /\
  exists osInfo netInterfaces,
    In (StaticInfoSettled "socket-2" (Resolved osInfo) (Resolved netInterfaces))
       [ Connection "socket-2";
         IntervalSettled sample_queries;
         StaticInfoSettled "socket-2" (Resolved sample_osInfo)
           (Resolved sample_netInterfaces) ] /\
    vm_info sample_osInfo sample_netInterfaces = vm_info osInfo netInterfaces.
Proof.
  assert (H : In (EvVmInfo (vm_info sample_osInfo sample_netInterfaces))
                (received "socket-2"
                   (snd (run ["socket-1"]
                             [ Connection "socket-2";
                               IntervalSettled sample_queries;
                               StaticInfoSettled "socket-2"
                                 (Resolved sample_osInfo)
                                 (Resolved sample_netInterfaces) ]))))
    by (right; right; left; reflexivity).
  split; [exact H |].
  exact (vm_info_comes_from_own_handshake ["socket-1"] "socket-2" _ _ H).
Defined.
